(** * Image-moderation chatbot: the Slack event handler

    A shallow embedding of [lambda_functions/moderate_image.py] and the
    properties of its handler.  The handler is straight-line Python over a
    JSON event, with four calls that leave the process: three through
    [urllib.request.urlopen] (file download, [files.delete],
    [chat.postMessage]) and one through the Rekognition client.  Those
    are modelled by an oracle ([World]) and every invocation is recorded,
    with its outcome, in the run's state next to what [print] wrote. *)

From Stdlib Require Import ZArith Floats.PrimFloat Floats.SpecFloat Floats.FloatOps.
From stdpp Require Import gmap strings list.

Set Warnings "-register-all".

(** ** Python values *)

(** The event is the JSON document Slack delivered, already decoded:
    [None], booleans, numbers ([int] or [float]), strings, lists and
    dicts keyed by strings. *)
Inductive value :=
| VNone
| VBool (b : bool)
| VInt (n : Z)
| VFloat (f : float)
| VStr (s : string)
| VList (l : list value)
| VDict (d : gmap string value).

Definition bytes := list Byte.byte.

(** An exception raised inside [urllib] or [botocore]: its class name
    and [str(e)]. *)
Record lib_error := { exc_class : string; exc_str : string }.

(** What the handler itself can raise, and what it lets through. *)
Inductive exn :=
| KeyError (key : string)   (* [d[k]] on a dict without [k] *)
| TypeError                 (* [v[k]] or [v > n] on a value without that operation *)
| AttributeError            (* [v.get(k)] on a value that is not a dict *)
| LibError (e : lib_error).

Inductive result (A : Type) :=
| Ok (a : A)
| Raise (e : exn).
Arguments Ok {A} a.
Arguments Raise {A} e.

(** ** The outside world *)

(** [urllib.request.Request(url, data, headers)].  [data] is the sequence
    of fields handed to [urllib.parse.urlencode] ([None] for a GET); the
    percent-encoding and the ASCII encoding of that sequence are not
    expanded. *)
Record request := {
  full_url : value;
  data : option (list (string * value));
  headers : list (string * string)
}.

(** One moderation label of a [detect_moderation_labels] response. *)
Record ModerationLabel := {
  Confidence : float;
  Name : string;
  ParentName : string
}.

Record response := { ModerationLabels : list ModerationLabel }.

(** The answers of the two services.  A handler run sends at most one GET
    and two POSTs, to different requests, so a function of the request is
    as general as a stateful service. *)
Record World := {
  net_urlopen : request -> bytes + lib_error;
  rekognition_detect : bytes -> float -> response + lib_error
}.

(** One call that left the handler, and how it came back.  For [Urlopen]
    the entry stands for the construction of the request and
    [urlopen(request)] together: a URL that [urllib] refuses is an entry
    with a failed outcome. *)
Inductive io_event :=
| Urlopen (r : request) (out : bytes + lib_error)
| DetectModerationLabels (image : bytes) (min_confidence : float)
    (out : response + lib_error).

(** ** The run monad: calls made and lines printed so far *)

Record state := { calls : list io_event; stdout : list string }.

Definition M (A : Type) : Type := state -> result A * state.

Definition ret {A} (a : A) : M A := fun st => (Ok a, st).

Definition raise {A} (e : exn) : M A := fun st => (Raise e, st).

Definition bind {A B} (m : M A) (k : A -> M B) : M B :=
  fun st =>
    match m st with
    | (Ok a, st') => k a st'
    | (Raise e, st') => (Raise e, st')
    end.

Notation "'let!' x ':=' m 'in' k" := (bind m (fun x => k))
  (at level 10, x name, m at level 100, k at level 200).
Notation "m ;;; k" := (bind m (fun _ => k))
  (at level 100, k at level 200, right associativity).

Definition print (line : string) : M unit :=
  fun st => (Ok tt, {| calls := calls st; stdout := stdout st ++ [line] |}).

Definition record_call (e : io_event) : M unit :=
  fun st => (Ok tt, {| calls := calls st ++ [e]; stdout := stdout st |}).

Definition init : state := {| calls := []; stdout := [] |}.

(** ** Python operations on values *)

(** [v[k]] *)
Definition getitem (v : value) (k : string) : M value :=
  match v with
  | VDict d =>
      match d !! k with
      | Some x => ret x
      | None => raise (KeyError k)
      end
  | _ => raise TypeError
  end.

(** [v.get(k)] *)
Definition dict_get (v : value) (k : string) : M value :=
  match v with
  | VDict d => ret (default VNone (d !! k))
  | _ => raise AttributeError
  end.

(** [v != s] for a [str] [s]: only an equal string is equal to it. *)
Definition ne_str (v : value) (s : string) : bool :=
  match v with
  | VStr s' => negb (String.eqb s' s)
  | _ => true
  end.

(** [v in l] for a list [l] of [str]. *)
Definition in_strs (v : value) (l : list string) : bool :=
  match v with
  | VStr s => existsb (String.eqb s) l
  | _ => false
  end.

Arguments in_strs : simpl never.

(** [f > n] for a [float] [f] and an [int] [n].  Python compares the
    two numbers exactly: a finite float is [(-1)^s * m * 2^e]; [nan] is
    greater than nothing. *)
Definition float_gt_Z (f : float) (n : Z) : bool :=
  match Prim2SF f with
  | S754_zero _ => (n <? 0)%Z
  | S754_infinity negative => negb negative
  | S754_nan => false
  | S754_finite negative m e =>
      let mantissa := if negative then Z.neg m else Z.pos m in
      if (0 <=? e)%Z then (n <? mantissa * 2 ^ e)%Z
      else (n * 2 ^ (- e) <? mantissa)%Z
  end.

Arguments float_gt_Z : simpl never.

(** [v > n] for an [int] [n]; a [bool] compares as 0 or 1. *)
Definition gt_int (v : value) (n : Z) : M bool :=
  match v with
  | VInt m => ret (n <? m)%Z
  | VBool b => ret (n <? Z.b2z b)%Z
  | VFloat f => ret (float_gt_Z f n)
  | _ => raise TypeError
  end.

(** [v is not None] *)
Definition is_not_None (v : value) : bool :=
  match v with
  | VNone => false
  | _ => true
  end.

(** ** The module *)

Definition SUPPORTED_TYPES : list string := ["image/jpeg"; "image/jpg"; "image/png"].
Definition MAX_SIZE : Z := 5242880.

Definition FILES_DELETE_URL : string := "https://slack.com/api/files.delete".
Definition POST_MESSAGE_URL : string := "https://slack.com/api/chat.postMessage".
Definition REMOVAL_TEXT : string :=
  "File removed due to displaying explicit or suggestive adult content.".
Definition FORM_HEADERS : list (string * string) :=
  [("Content-Type", "application/x-www-form-urlencoded")].

Section Handler.

(** The module's globals, read from the environment at import. *)
Variable VERIFICATION_TOKEN : string.
Variable ACCESS_TOKEN : string.
Variable MIN_CONFIDENCE : float.
Variable world : World.

(** [urllib.request.urlopen(request)], the body read. *)
Definition urlopen (r : request) : M bytes :=
  let out := net_urlopen world r in
  record_call (Urlopen r out);;;
  match out with
  | inl body => ret body
  | inr e => raise (LibError e)
  end.

Definition verify_token (event : value) : M bool :=
  let! token := getitem event "token" in
  if ne_str token VERIFICATION_TOKEN then
    print "Presented with invalid token- ignoring message...";;;
    ret false
  else ret true.

Definition validate_event (event : value) : M bool :=
  let! event_details := getitem event "event" in
  let! file_subtype := dict_get event_details "subtype" in
  if ne_str file_subtype "file_share" then
    print "Not a file_shared event- ignoring event...";;;
    ret false
  else
    let! file_details := getitem event_details "file" in
    let! mime_type := getitem file_details "mimetype" in
    let! file_size := getitem file_details "size" in
    if negb (in_strs mime_type SUPPORTED_TYPES) then
      print "File is not an image- ignoring event...";;;
      ret false
    else
      let! too_large := gt_int file_size MAX_SIZE in
      if too_large then
        print "Image is larger than 5MB and cannot be processed- ignoring event...";;;
        ret false
      else ret true.

Definition download_request (url : value) : request :=
  {| full_url := url;
     data := None;
     headers := [("Authorization", "Bearer " +:+ ACCESS_TOKEN)] |}.

Definition download_image (url : value) : M bytes :=
  urlopen (download_request url).

Definition detect_explicit_content (image_bytes : bytes) : M bool :=
  let out := rekognition_detect world image_bytes MIN_CONFIDENCE in
  record_call (DetectModerationLabels image_bytes MIN_CONFIDENCE out);;;
  match out with
  | inr e =>
      print (exc_str e);;;
      print "Unable to detect labels for image.";;;
      raise (LibError e)
  | inl response =>
      let labels := ModerationLabels response in
      match labels with
      | [] => ret false
      | _ :: _ => ret true
      end
  end.

Definition delete_request (file_id : value) : request :=
  {| full_url := VStr FILES_DELETE_URL;
     data := Some [("token", VStr ACCESS_TOKEN); ("file", file_id)];
     headers := FORM_HEADERS |}.

Definition delete_file (file_id : value) : M unit :=
  urlopen (delete_request file_id);;;
  ret tt.

Definition post_request (channel : value) : request :=
  {| full_url := VStr POST_MESSAGE_URL;
     data := Some [("token", VStr ACCESS_TOKEN);
                   ("channel", channel);
                   ("text", VStr REMOVAL_TEXT)];
     headers := FORM_HEADERS |}.

Definition post_message (channel : value) : M unit :=
  urlopen (post_request channel);;;
  ret tt.

(** The entry point.  The runtime's [context] object is never read.
    A Python function that ends without [return e] returns [None]. *)
Definition lambda_handler (event : value) (context : unit) : M value :=
  print "Validating message...";;;
  let! token_ok := verify_token event in
  if negb token_ok then ret VNone
  else
    let! presented := dict_get event "challenge" in
    if is_not_None presented then
      print "Presented with URL verification challenge- responding accordingly...";;;
      let! challenge := getitem event "challenge" in
      ret (VDict {[ "challenge" := challenge ]})
    else
      let! valid := validate_event event in
      if negb valid then ret VNone
      else
        let! event_details := getitem event "event" in
        let! file_details := getitem event_details "file" in
        let! channel := getitem event_details "channel" in
        let! url := getitem file_details "url_private" in
        let! file_id := getitem file_details "id" in
        print "Downloading image...";;;
        let! image_bytes := download_image url in
        print "Checking image for explicit content...";;;
        let! is_explicit := detect_explicit_content image_bytes in
        if is_explicit then
          print "Image displays explicit content- deleting from Slack Shared Files...";;;
          delete_file file_id;;;
          print "Posting message to channel to notify users of file deletion...";;;
          post_message channel;;;
          ret VNone
        else ret VNone.

(** One invocation, from a fresh log. *)
Definition run (event : value) : result value * state :=
  lambda_handler event tt init.

Definition returned (event : value) : result value := fst (run event).
Definition trace (event : value) : list io_event := calls (snd (run event)).
Definition printed (event : value) : list string := stdout (snd (run event)).

End Handler.

(** ** Reading a trace *)

(** A form POST to the endpoint [endpoint]. *)
Definition is_post_to (endpoint : string) (e : io_event) : bool :=
  match e with
  | Urlopen r _ =>
      match full_url r, data r with
      | VStr u, Some _ => String.eqb u endpoint
      | _, _ => false
      end
  | DetectModerationLabels _ _ _ => false
  end.

(** The platform-mutation calls: deletions and channel posts. *)
Definition is_mutation (e : io_event) : bool :=
  is_post_to FILES_DELETE_URL e || is_post_to POST_MESSAGE_URL e.

Definition mutations (t : list io_event) : list io_event := List.filter is_mutation t.

(** Fields of the event, by path. *)
Definition field (k : string) (v : value) : option value :=
  match v with
  | VDict d => d !! k
  | _ => None
  end.

Fixpoint path (ks : list string) (v : value) : option value :=
  match ks with
  | [] => Some v
  | k :: ks' =>
      match field k v with
      | Some v' => path ks' v'
      | None => None
      end
  end.

Definition event_channel : value -> option value := path ["event"; "channel"].
Definition event_file_id : value -> option value := path ["event"; "file"; "id"].
Definition event_url_private : value -> option value :=
  path ["event"; "file"; "url_private"].

(** ** The shape of a run *)

Section Shape.

Variable ACCESS_TOKEN : string.
Variable MIN_CONFIDENCE : float.
Variable world : World.

(** Every run of the handler, on any event and against any world, has
    one of six shapes, told apart by how far it went. *)
Inductive handled (event : value) : result value * state -> Prop :=
| quiet r out :
    handled event (r, {| calls := []; stdout := out |})
| download_failed url e :
    event_url_private event = Some url ->
    net_urlopen world (download_request ACCESS_TOKEN url) = inr e ->
    handled event
      (Raise (LibError e),
       {| calls := [Urlopen (download_request ACCESS_TOKEN url) (inr e)];
          stdout := ["Validating message..."; "Downloading image..."] |})
| detect_failed url image e :
    event_url_private event = Some url ->
    rekognition_detect world image MIN_CONFIDENCE = inr e ->
    handled event
      (Raise (LibError e),
       {| calls := [Urlopen (download_request ACCESS_TOKEN url) (inl image);
                    DetectModerationLabels image MIN_CONFIDENCE (inr e)];
          stdout := ["Validating message..."; "Downloading image...";
                     "Checking image for explicit content...";
                     exc_str e; "Unable to detect labels for image."] |})
| not_flagged url image :
    event_url_private event = Some url ->
    rekognition_detect world image MIN_CONFIDENCE = inl {| ModerationLabels := [] |} ->
    handled event
      (Ok VNone,
       {| calls := [Urlopen (download_request ACCESS_TOKEN url) (inl image);
                    DetectModerationLabels image MIN_CONFIDENCE
                      (inl {| ModerationLabels := [] |})];
          stdout := ["Validating message..."; "Downloading image...";
                     "Checking image for explicit content..."] |})
| delete_failed url image resp file_id e :
    event_url_private event = Some url ->
    rekognition_detect world image MIN_CONFIDENCE = inl resp ->
    event_file_id event = Some file_id ->
    ModerationLabels resp ≠ [] ->
    handled event
      (Raise (LibError e),
       {| calls := [Urlopen (download_request ACCESS_TOKEN url) (inl image);
                    DetectModerationLabels image MIN_CONFIDENCE (inl resp);
                    Urlopen (delete_request ACCESS_TOKEN file_id) (inr e)];
          stdout := ["Validating message..."; "Downloading image...";
                     "Checking image for explicit content...";
                     "Image displays explicit content- deleting from Slack Shared Files..."] |})
| removed url image resp file_id channel body out :
    event_url_private event = Some url ->
    rekognition_detect world image MIN_CONFIDENCE = inl resp ->
    event_file_id event = Some file_id ->
    event_channel event = Some channel ->
    ModerationLabels resp ≠ [] ->
    handled event
      (match out with inl _ => Ok VNone | inr e => Raise (LibError e) end,
       {| calls := [Urlopen (download_request ACCESS_TOKEN url) (inl image);
                    DetectModerationLabels image MIN_CONFIDENCE (inl resp);
                    Urlopen (delete_request ACCESS_TOKEN file_id) (inl body);
                    Urlopen (post_request ACCESS_TOKEN channel) out];
          stdout := ["Validating message..."; "Downloading image...";
                     "Checking image for explicit content...";
                     "Image displays explicit content- deleting from Slack Shared Files...";
                     "Posting message to channel to notify users of file deletion..."] |}).

End Shape.

(** ** What the gates let through *)

(** A [size] that [file_size > MAX_SIZE] finds not too large: an [int] up
    to the limit, a [float] not above it ([nan] included), or a [bool]. *)
Definition size_accepted (v : value) : Prop :=
  match v with
  | VInt n => (n <= MAX_SIZE)%Z
  | VFloat f => float_gt_Z f MAX_SIZE = false
  | VBool _ => True
  | _ => False
  end.

(** The callbacks [validate_event] answers [True] to: the nested event is
    a [file_share] whose file has a supported type and an accepted size. *)
Definition valid_share (d : gmap string value) : Prop :=
  ∃ (d_event d_file : gmap string value) (mime : string) (file_size : value),
    d !! "event" = Some (VDict d_event)
    ∧ d_event !! "subtype" = Some (VStr "file_share")
    ∧ d_event !! "file" = Some (VDict d_file)
    ∧ d_file !! "mimetype" = Some (VStr mime)
    ∧ In mime SUPPORTED_TYPES
    ∧ d_file !! "size" = Some file_size
    ∧ size_accepted file_size.

(** ** Sample configuration, events and worlds *)

Module Sample.

Definition VERIFICATION_TOKEN : string := "s3cr3t-verification".
Definition ACCESS_TOKEN : string := "xoxb-access".
Definition MIN_CONFIDENCE : float := 80%float.

Definition image : bytes := [Byte.xff; Byte.xd8; Byte.xff; Byte.xe0].

Definition nudity : ModerationLabel :=
  {| Confidence := 97.5%float; Name := "Nudity"; ParentName := "Explicit Nudity" |}.

Definition unreachable : lib_error :=
  {| exc_class := "URLError"; exc_str := "<urlopen error timed out>" |}.

Definition throttled : lib_error :=
  {| exc_class := "ClientError";
     exc_str := "An error occurred (ThrottlingException) when calling the DetectModerationLabels operation: Rate exceeded" |}.

(** Every request answered; the image is flagged. *)
Definition flagging : World :=
  {| net_urlopen := fun _ => inl image;
     rekognition_detect := fun _ _ => inl {| ModerationLabels := [nudity] |} |}.

(** Every request answered; nothing is flagged. *)
Definition clean : World :=
  {| net_urlopen := fun _ => inl image;
     rekognition_detect := fun _ _ => inl {| ModerationLabels := [] |} |}.

(** The moderation service fails. *)
Definition rekognition_down : World :=
  {| net_urlopen := fun _ => inl image;
     rekognition_detect := fun _ _ => inr throttled |}.

(** The image is flagged, and every form POST fails. *)
Definition posts_fail : World :=
  {| net_urlopen := fun r =>
       match data r with
       | Some _ => inr unreachable
       | None => inl image
       end;
     rekognition_detect := fun _ _ => inl {| ModerationLabels := [nudity] |} |}.

Definition url_private : value :=
  VStr "https://files.slack.com/files-pri/T0-F0/cat.png".
Definition file_id : value := VStr "F024BE91L".
Definition channel : value := VStr "C024BE91L".

(** The [file] object of a share. *)
Definition file (mimetype : string) (size : Z) : gmap string value :=
  <["id" := file_id]>
    (<["mimetype" := VStr mimetype]>
       (<["size" := VInt size]> {[ "url_private" := url_private ]})).

(** The nested [event] object of a share. *)
Definition share (mimetype : string) (size : Z) : gmap string value :=
  <["subtype" := VStr "file_share"]>
    (<["channel" := channel]> {[ "file" := VDict (file mimetype size) ]}).

(** A [file_share] callback. *)
Definition file_share (token mimetype : string) (size : Z) : gmap string value :=
  <["token" := VStr token]> {[ "event" := VDict (share mimetype size) ]}.

Definition shared_png : gmap string value :=
  file_share VERIFICATION_TOKEN "image/png" 204800.

(** The URL-verification handshake. *)
Definition handshake (token : string) : gmap string value :=
  <["token" := VStr token]> {[ "challenge" := VStr "abc123" ]}.

(** An ordinary message: no [subtype], no [file]. *)
Definition message : gmap string value :=
  <["channel" := channel]> {[ "text" := VStr "hello" ]}.

Definition plain_message : gmap string value :=
  <["token" := VStr VERIFICATION_TOKEN]> {[ "event" := VDict message ]}.

Definition forged_share : gmap string value :=
  file_share "forged" "image/png" 204800.

(** A callback without the [token] key. *)
Definition tokenless : gmap string value :=
  {[ "event" := VDict (share "image/png" 204800) ]}.

Definition oversized_png : gmap string value :=
  file_share VERIFICATION_TOKEN "image/png" 5242881.

Definition largest_png : gmap string value :=
  file_share VERIFICATION_TOKEN "image/png" 5242880.

Definition shared_gif : gmap string value :=
  file_share VERIFICATION_TOKEN "image/gif" 204800.

(** A share whose [file] object was cut down to its [id]. *)
Definition truncated_share : gmap string value :=
  <["token" := VStr VERIFICATION_TOKEN]>
    {[ "event" := VDict (<["subtype" := VStr "file_share"]>
                         {[ "file" := VDict {[ "id" := file_id ]} ]}) ]}.

(** The download fails; nothing else is reached. *)
Definition download_down : World :=
  {| net_urlopen := fun _ => inr unreachable;
     rekognition_detect := fun _ _ => inl {| ModerationLabels := [nudity] |} |}.

(** A callback around the nested event object [inner]. *)
Definition callback (inner : value) : gmap string value :=
  <["token" := VStr VERIFICATION_TOKEN]> {[ "event" := inner ]}.

(** A PNG whose [size] came as a string. *)
Definition string_size_file : gmap string value :=
  <["id" := file_id]>
    (<["mimetype" := VStr "image/png"]>
       (<["size" := VStr "204800"]> {[ "url_private" := url_private ]})).

Definition string_size_event : gmap string value :=
  <["subtype" := VStr "file_share"]>
    (<["channel" := channel]> {[ "file" := VDict string_size_file ]}).

(** A share whose [file] is [None]. *)
Definition null_file_event : gmap string value :=
  <["subtype" := VStr "file_share"]> {[ "file" := VNone ]}.

(** A share without [channel]. *)
Definition no_channel_event : gmap string value :=
  <["subtype" := VStr "file_share"]>
    {[ "file" := VDict (file "image/png" 204800) ]}.

(** [shared_png] with a [None] challenge, and with a key the handler
    does not read. *)
Definition null_challenge_png : gmap string value :=
  <["challenge" := VNone]> shared_png.

Definition shared_png_of_team : gmap string value :=
  <["team_id" := VStr "T024BE7LD"]> shared_png.

(** A PNG at the size limit, shared with a forged token. *)
Definition forged_largest_png : gmap string value :=
  file_share "forged" "image/png" 5242880.

(** A GIF whose file object has no [size]. *)
Definition sizeless_gif_file : gmap string value :=
  <["id" := file_id]>
    (<["mimetype" := VStr "image/gif"]> {[ "url_private" := url_private ]}).

Definition sizeless_gif_event : gmap string value :=
  <["subtype" := VStr "file_share"]>
    (<["channel" := channel]> {[ "file" := VDict sizeless_gif_file ]}).

(** A PNG whose [size] came as a float. *)
Definition float_size_file : gmap string value :=
  <["id" := file_id]>
    (<["mimetype" := VStr "image/png"]>
       (<["size" := VFloat 204800.5%float]> {[ "url_private" := url_private ]})).

Definition float_size_event : gmap string value :=
  <["subtype" := VStr "file_share"]>
    (<["channel" := channel]> {[ "file" := VDict float_size_file ]}).

Definition run := run VERIFICATION_TOKEN ACCESS_TOKEN MIN_CONFIDENCE.
Definition returned := returned VERIFICATION_TOKEN ACCESS_TOKEN MIN_CONFIDENCE.
Definition trace := trace VERIFICATION_TOKEN ACCESS_TOKEN MIN_CONFIDENCE.
Definition printed := printed VERIFICATION_TOKEN ACCESS_TOKEN MIN_CONFIDENCE.

End Sample.

(** ** Properties of the handler *)

Lemma ne_str_true (v : value) (s : string) : v ≠ VStr s -> ne_str v s = true.
Proof.
  destruct v as [| | | |s'| |]; simpl; try reflexivity.
  intros Hne. apply negb_true_iff, String.eqb_neq. congruence.
Qed.

Lemma ne_str_false (v : value) (s : string) : ne_str v s = false -> v = VStr s.
Proof.
  destruct v as [| | | |s'| |]; simpl; try discriminate.
  intros H. apply negb_false_iff, String.eqb_eq in H. now subst.
Qed.

(** Unfolds a run down to the lookups and the oracle's answers. *)
Ltac open_handler :=
  unfold returned, trace, printed;
  unfold run, lambda_handler, verify_token,
    validate_event, download_image, detect_explicit_content, delete_file,
    post_message, urlopen, getitem, dict_get, gt_int, bind, ret, raise,
    print, record_call, init.

Lemma in_strs_supported (mime : string) :
  In mime SUPPORTED_TYPES -> in_strs (VStr mime) SUPPORTED_TYPES = true.
Proof.
  unfold SUPPORTED_TYPES. simpl.
  intros [<-|[<-|[<-|[]]]]; reflexivity.
Qed.

Lemma in_strs_unsupported (v : value) :
  (forall s, In s SUPPORTED_TYPES -> v ≠ VStr s) ->
  in_strs v SUPPORTED_TYPES = false.
Proof.
  intros Hout. destruct v as [| | | |s| |]; try reflexivity.
  unfold in_strs. apply not_true_is_false. intros Hex.
  apply existsb_exists in Hex as (s' & Hin & Heq).
  apply String.eqb_eq in Heq. subst s'. now apply (Hout s).
Qed.

(** Rewrites with the lookups known from the context, as they come up. *)
Ltac use_lookups :=
  repeat (cbn; match goal with
               | H : ?m !! ?k = _ |- context [?m !! ?k] => rewrite H
               end).

(** The download is a GET: it is never counted as a deletion or a post. *)
Lemma download_not_mutation (access_token : string) (url : value) out :
  is_mutation (Urlopen (download_request access_token url) out) = false.
Proof. destruct url; reflexivity. Qed.

Section Properties.

Variable VERIFICATION_TOKEN : string.
Variable ACCESS_TOKEN : string.
Variable MIN_CONFIDENCE : float.
Variable world : World.

Abbreviation run := (run VERIFICATION_TOKEN ACCESS_TOKEN MIN_CONFIDENCE world).
Abbreviation returned := (returned VERIFICATION_TOKEN ACCESS_TOKEN MIN_CONFIDENCE world).
Abbreviation trace := (trace VERIFICATION_TOKEN ACCESS_TOKEN MIN_CONFIDENCE world).
Abbreviation printed := (printed VERIFICATION_TOKEN ACCESS_TOKEN MIN_CONFIDENCE world).

(** A presented token other than the configured one stops the run after
    the token check, whatever else the event holds. *)
Lemma run_bad_token (d : gmap string value) (token : value) :
  d !! "token" = Some token ->
  token ≠ VStr VERIFICATION_TOKEN ->
  run (VDict d) =
    (Ok VNone,
     {| calls := [];
        stdout := ["Validating message...";
                   "Presented with invalid token- ignoring message..."] |}).
Proof.
  intros Htok Hne. open_handler.
  rewrite Htok. cbn. rewrite (ne_str_true _ _ Hne). reflexivity.
Qed.

(** C3: an event whose token differs from the configured verification
    token makes no outbound call and the handler returns [None]. *)
Theorem bad_token_ignored (d : gmap string value) (token : value) :
  d !! "token" = Some token ->
  token ≠ VStr VERIFICATION_TOKEN ->
  returned (VDict d) = Ok VNone ∧ trace (VDict d) = [].
Proof.
  intros Htok Hne. unfold returned, trace.
  rewrite (run_bad_token d token Htok Hne). split; reflexivity.
Qed.

(** C8: an event without a [token] key raises [KeyError] out of the
    handler, before any outbound call. *)
Theorem missing_token_raises (d : gmap string value) :
  d !! "token" = None ->
  returned (VDict d) = Raise (KeyError "token") ∧ trace (VDict d) = [].
Proof.
  intros Htok. open_handler. rewrite Htok. cbn. split; reflexivity.
Qed.

(** C10: an event that carries a challenge but presents a token other
    than the configured one gets no echo: the handler returns [None]
    and makes no outbound call. *)
Theorem challenge_needs_token (d : gmap string value) (token challenge : value) :
  d !! "token" = Some token ->
  token ≠ VStr VERIFICATION_TOKEN ->
  d !! "challenge" = Some challenge ->
  returned (VDict d) = Ok VNone
  ∧ returned (VDict d) ≠ Ok (VDict {[ "challenge" := challenge ]})
  ∧ trace (VDict d) = [].
Proof.
  intros Htok Hne _. unfold returned, trace.
  rewrite (run_bad_token d token Htok Hne). cbn. repeat split; try reflexivity.
  discriminate.
Qed.

(** C4, amended: when the token matches and the event carries a
    challenge that is not [None], the handler returns the dict
    [{'challenge': challenge}], makes no outbound call and only
    prints its two progress lines. *)
Theorem challenge_echoed (d : gmap string value) (challenge : value) :
  d !! "token" = Some (VStr VERIFICATION_TOKEN) ->
  d !! "challenge" = Some challenge ->
  challenge ≠ VNone ->
  run (VDict d) =
    (Ok (VDict {[ "challenge" := challenge ]}),
     {| calls := [];
        stdout := ["Validating message...";
                   "Presented with URL verification challenge- responding accordingly..."] |}).
Proof.
  intros Htok Hch Hnn. open_handler.
  rewrite Htok. cbn. rewrite String.eqb_refl. cbn. rewrite Hch. cbn.
  destruct challenge; try contradiction; reflexivity.
Qed.

(** *** The shape of a run *)

Abbreviation handled := (handled ACCESS_TOKEN MIN_CONFIDENCE world).

Lemma run_handled (event : value) : handled event (run event).
Proof.
  destruct event as [| | | | | |d]; try (open_handler; cbn; apply quiet).
  open_handler.
  repeat (case_match; cbn in *; simplify_eq; try apply quiet).
  all: match goal with
       | |- handled _ (_, {| calls := [_; _; _; Urlopen _ ?o] |}) =>
           eapply removed with (out := o)
       | |- handled _ (_, {| calls := [_; _; Urlopen _ (inr _)] |}) =>
           eapply delete_failed
       | |- handled _ (_, {| calls := [_; DetectModerationLabels _ _ (inr _)] |}) =>
           eapply detect_failed
       | |- handled _ (_, {| calls := [_; DetectModerationLabels _ _ (inl ?r)] |}) =>
           destruct r; simpl in *; subst; eapply not_flagged
       | |- handled _ (_, {| calls := [Urlopen _ (inr _)] |}) =>
           eapply download_failed
       end.
  all: try eassumption; try congruence.
  all: repeat (cbn; match goal with
                    | H : ?m !! ?k = _ |- context [?m !! ?k] => rewrite H
                    end); reflexivity.
Qed.

(** Case analysis of a run by its shape. *)
Ltac by_shape event :=
  let Hs := fresh "Hshape" in
  pose proof (run_handled event) as Hs;
  unfold returned, trace, printed in *;
  destruct (run event) as [? ?];
  inversion Hs; subst; clear Hs; simpl in *.


Lemma detect_explicit_content_raises (image : bytes) (e : lib_error) (st : state) :
  rekognition_detect world image MIN_CONFIDENCE = inr e ->
  detect_explicit_content MIN_CONFIDENCE world image st =
    (Raise (LibError e),
     {| calls := calls st ++
                 [DetectModerationLabels image MIN_CONFIDENCE (inr e)];
        stdout := (stdout st ++ [exc_str e]) ++
                  ["Unable to detect labels for image."] |}).
Proof. intros Hw. open_handler. rewrite Hw. reflexivity. Qed.



(** C5: in a run where the moderation call raised, the error's text and
    the line [Unable to detect labels for image.] are printed, the same
    error leaves [detect_explicit_content] and then the handler, no
    verdict is produced in its place, and the run holds neither a
    deletion nor a channel post. *)
Theorem detect_failure_propagates
    (event : value) (image : bytes) (e : lib_error) :
  In (DetectModerationLabels image MIN_CONFIDENCE (inr e)) (trace event) ->
  returned event = Raise (LibError e)
  ∧ (∀ st, fst (detect_explicit_content MIN_CONFIDENCE world image st)
           = Raise (LibError e))
  ∧ (∃ before, printed event =
               before ++ [exc_str e; "Unable to detect labels for image."])
  ∧ mutations (trace event) = [].
Proof.
  intros Hin.
  by_shape event; intuition (try discriminate); simplify_eq.
  - reflexivity.
  - now rewrite (detect_explicit_content_raises image e).
  - now exists ["Validating message..."; "Downloading image...";
                "Checking image for explicit content..."].
  - now rewrite download_not_mutation.
Qed.

(** C1, amended: in a run where the download returned bytes, the
    moderation call returned at least one label and the deletion call
    did not fail, the platform-mutation calls of the run are exactly
    two, in this order: one [files.delete] POST carrying the event's
    file id, then one [chat.postMessage] POST carrying the event's
    channel and the fixed removal text. *)
Theorem flagged_file_removed
    (event : value) (url : value) (image : bytes) (resp : response) :
  In (Urlopen (download_request ACCESS_TOKEN url) (inl image)) (trace event) ->
  In (DetectModerationLabels image MIN_CONFIDENCE (inl resp)) (trace event) ->
  ModerationLabels resp ≠ [] ->
  (∀ file_id e,
      ¬ In (Urlopen (delete_request ACCESS_TOKEN file_id) (inr e)) (trace event)) ->
  ∃ file_id channel body out,
    event_file_id event = Some file_id
    ∧ event_channel event = Some channel
    ∧ mutations (trace event) =
        [Urlopen (delete_request ACCESS_TOKEN file_id) (inl body);
         Urlopen (post_request ACCESS_TOKEN channel) out]
    ∧ data (delete_request ACCESS_TOKEN file_id) =
        Some [("token", VStr ACCESS_TOKEN); ("file", file_id)]
    ∧ data (post_request ACCESS_TOKEN channel) =
        Some [("token", VStr ACCESS_TOKEN); ("channel", channel);
              ("text", VStr "File removed due to displaying explicit or suggestive adult content.")].
Proof.
  intros Hdl Hdet Hne Hdel.
  by_shape event; try tauto.
  1-3: exfalso; intuition (try discriminate); simplify_eq; simpl in *; congruence.
  - exfalso. eapply Hdel. right; right; left. reflexivity.
  - rewrite download_not_mutation.
    eexists _, _, _, _. repeat split; eassumption || reflexivity.
Qed.

(** *** The validation gates *)

Section FileShare.

(** A callback whose nested event is a [file_share] of a file of a
    supported type. *)
Variables d d_event d_file : gmap string value.
Variable mime : string.
Variable size : Z.
Hypothesis Hevent : d !! "event" = Some (VDict d_event).
Hypothesis Hsubtype : d_event !! "subtype" = Some (VStr "file_share").
Hypothesis Hfile : d_event !! "file" = Some (VDict d_file).
Hypothesis Hmime : d_file !! "mimetype" = Some (VStr mime).
Hypothesis Hsupported : In mime SUPPORTED_TYPES.
Hypothesis Hsize : d_file !! "size" = Some (VInt size).

Lemma oversize_rejected (st : state) :
  (MAX_SIZE < size)%Z ->
  validate_event (VDict d) st =
    (Ok false,
     {| calls := calls st;
        stdout := stdout st ++
          ["Image is larger than 5MB and cannot be processed- ignoring event..."] |}).
Proof.
  intros Hbig. open_handler. use_lookups.
  rewrite (in_strs_supported mime Hsupported). cbn.
  apply Z.ltb_lt in Hbig. now rewrite Hbig.
Qed.

Lemma within_size_accepted (st : state) :
  (size <= MAX_SIZE)%Z -> validate_event (VDict d) st = (Ok true, st).
Proof.
  intros Hfits. open_handler. use_lookups.
  rewrite (in_strs_supported mime Hsupported). cbn.
  apply Z.ltb_ge in Hfits. now rewrite Hfits.
Qed.

(** An oversized share makes no call, whatever its token or
    challenge. *)
Lemma oversize_no_calls : (MAX_SIZE < size)%Z -> trace (VDict d) = [].
Proof.
  intros Hbig. apply Z.ltb_lt in Hbig. open_handler.
  destruct (d !! "token") as [token|]; cbn; [|reflexivity].
  destruct (ne_str token VERIFICATION_TOKEN); cbn; [reflexivity|].
  destruct (d !! "challenge") as [[]|]; cbn; try reflexivity.
  all: use_lookups; rewrite (in_strs_supported mime Hsupported); cbn.
  all: now rewrite Hbig.
Qed.

(** A share within the limit, past the token and handshake gates and
    with the fields the handler reads next, reaches the download. *)
Lemma within_size_downloads (channel url file_id : value) :
  (size <= MAX_SIZE)%Z ->
  d !! "token" = Some (VStr VERIFICATION_TOKEN) ->
  d !! "challenge" = None ->
  d_event !! "channel" = Some channel ->
  d_file !! "url_private" = Some url ->
  d_file !! "id" = Some file_id ->
  ∃ rest,
    trace (VDict d) =
      Urlopen (download_request ACCESS_TOKEN url)
        (net_urlopen world (download_request ACCESS_TOKEN url)) :: rest.
Proof.
  intros Hfits Htok Hch Hchan Hurl Hid. open_handler. use_lookups.
  rewrite String.eqb_refl. use_lookups.
  rewrite (in_strs_supported mime Hsupported). cbn.
  apply Z.ltb_ge in Hfits. rewrite Hfits. use_lookups.
  destruct (net_urlopen world _); cbn; [|eexists; reflexivity].
  destruct (rekognition_detect world _ _) as [[[|]]|]; cbn;
    try (eexists; reflexivity).
  repeat (destruct (net_urlopen world _); cbn); eexists; reflexivity.
Qed.

End FileShare.

(** C6, amended: for a [file_share] of a file of a supported type, a
    size of 5242881 makes the handler perform no outbound call, and a
    size of 5242880 passes [validate_event]; when the event also
    presents the configured token, has no challenge and carries
    [channel], [url_private] and [id], the handler then goes on to the
    download, its first outbound call. *)
Theorem size_limit_is_inclusive
    (d d_event d_file : gmap string value) (mime : string) (size : Z) :
  d !! "event" = Some (VDict d_event) ->
  d_event !! "subtype" = Some (VStr "file_share") ->
  d_event !! "file" = Some (VDict d_file) ->
  d_file !! "mimetype" = Some (VStr mime) ->
  In mime SUPPORTED_TYPES ->
  d_file !! "size" = Some (VInt size) ->
  (size = 5242881%Z -> trace (VDict d) = [])
  ∧ (size = 5242880%Z ->
     (∀ st, validate_event (VDict d) st = (Ok true, st))
     ∧ (∀ channel url file_id,
          d !! "token" = Some (VStr VERIFICATION_TOKEN) ->
          d !! "challenge" = None ->
          d_event !! "channel" = Some channel ->
          d_file !! "url_private" = Some url ->
          d_file !! "id" = Some file_id ->
          ∃ rest,
            trace (VDict d) =
              Urlopen (download_request ACCESS_TOKEN url)
                (net_urlopen world (download_request ACCESS_TOKEN url)) :: rest)).
Proof.
  intros Hevent Hsubtype Hfile Hmime Hsupported Hsize. split; intros ->.
  - eapply oversize_no_calls; eauto. reflexivity.
  - split.
    + intros st. eapply within_size_accepted; eauto. discriminate.
    + intros channel url file_id Htok Hch Hchan Hurl Hid.
      eapply within_size_downloads; eauto. discriminate.
Qed.

(** C7, amended: with a matching token and no challenge, an event
    whose nested event object has a subtype other than [file_share] (or
    none), or whose file object carries a [size] and a mimetype outside
    the supported set, makes the handler return [None] without any
    outbound call. *)
Theorem unsupported_event_ignored (d d_event : gmap string value) :
  d !! "token" = Some (VStr VERIFICATION_TOKEN) ->
  d !! "challenge" = None ->
  d !! "event" = Some (VDict d_event) ->
  (d_event !! "subtype" ≠ Some (VStr "file_share")
   ∨ ∃ (d_file : gmap string value) (mime file_size : value),
       d_event !! "file" = Some (VDict d_file)
       ∧ d_file !! "mimetype" = Some mime
       ∧ d_file !! "size" = Some file_size
       ∧ ∀ s, In s SUPPORTED_TYPES -> mime ≠ VStr s) ->
  returned (VDict d) = Ok VNone ∧ trace (VDict d) = [].
Proof.
  intros Htok Hch Hevent Hignored. open_handler. use_lookups.
  rewrite String.eqb_refl. use_lookups.
  destruct (ne_str (default VNone (d_event !! "subtype")) "file_share") eqn:Hsub;
    cbn; [split; reflexivity|].
  apply ne_str_false in Hsub.
  destruct Hignored as [Hother|(d_file & mime & file_size & Hfile & Hmime & Hsize & Hout)].
  - exfalso. apply Hother.
    destruct (d_event !! "subtype"); simpl in Hsub; congruence.
  - use_lookups. rewrite (in_strs_unsupported mime Hout). cbn.
    split; reflexivity.
Qed.

(** C9: with a matching token and no challenge, an event without the
    nested [event] object, or a [file_share] without its [file]
    object, or whose file object lacks [mimetype] or [size], makes the
    handler raise [KeyError] for that key, before any outbound call. *)
Theorem missing_fields_raise (d : gmap string value) :
  d !! "token" = Some (VStr VERIFICATION_TOKEN) ->
  d !! "challenge" = None ->
  (d !! "event" = None
   ∨ ∃ d_event : gmap string value,
       d !! "event" = Some (VDict d_event)
       ∧ d_event !! "subtype" = Some (VStr "file_share")
       ∧ (d_event !! "file" = None
          ∨ ∃ d_file : gmap string value,
              d_event !! "file" = Some (VDict d_file)
              ∧ (d_file !! "mimetype" = None ∨ d_file !! "size" = None))) ->
  ∃ key,
    In key ["event"; "file"; "mimetype"; "size"]
    ∧ returned (VDict d) = Raise (KeyError key)
    ∧ trace (VDict d) = [].
Proof.
  intros Htok Hch Hmissing. open_handler. use_lookups.
  rewrite String.eqb_refl. use_lookups.
  destruct Hmissing as [Hevent|(d_event & Hevent & Hsubtype & Hfile)].
  - exists "event". use_lookups. simpl. tauto.
  - use_lookups.
    destruct Hfile as [Hfile|(d_file & Hfile & Hfield)].
    + exists "file". use_lookups. simpl. tauto.
    + use_lookups. destruct Hfield as [Hmime|Hsize].
      * exists "mimetype". use_lookups. simpl. tauto.
      * destruct (d_file !! "mimetype") as [mime|]; cbn.
        -- exists "size". use_lookups. simpl. tauto.
        -- exists "mimetype". simpl. tauto.
Qed.

(** *** The two validators on their own *)

Lemma default_subtype_is (d_event : gmap string value) (s : string) :
  ne_str (default VNone (d_event !! "subtype")) s = false ->
  d_event !! "subtype" = Some (VStr s).
Proof.
  intros H. apply ne_str_false in H.
  destruct (d_event !! "subtype"); simpl in H; congruence.
Qed.

Lemma in_strs_inv (v : value) (l : list string) :
  in_strs v l = true -> ∃ s, v = VStr s ∧ In s l.
Proof.
  destruct v as [| | | |s| |]; try discriminate. unfold in_strs. intros H.
  apply existsb_exists in H as (s' & Hin & Heq).
  apply String.eqb_eq in Heq. subst s'. now exists s.
Qed.

(** X1: [verify_token] answers [True] exactly when the presented token
    is the string equal to the configured one, and then it prints
    nothing and makes no call. *)
Theorem verify_token_exact (d : gmap string value) (st : state) :
  (fst (verify_token VERIFICATION_TOKEN (VDict d) st) = Ok true
   ↔ d !! "token" = Some (VStr VERIFICATION_TOKEN))
  ∧ (d !! "token" = Some (VStr VERIFICATION_TOKEN) ->
     verify_token VERIFICATION_TOKEN (VDict d) st = (Ok true, st)).
Proof.
  open_handler.
  destruct (d !! "token") as [token|]; cbn.
  - destruct (ne_str token VERIFICATION_TOKEN) eqn:Hne; cbn.
    + repeat split; try discriminate;
        intros H; simplify_eq; simpl in Hne;
        rewrite String.eqb_refl in Hne; discriminate.
    + apply ne_str_false in Hne. subst token. repeat split; reflexivity.
  - repeat split; discriminate.
Qed.

(** X2: [validate_event] answers [True] exactly to the valid shares: a
    nested [file_share] event whose file has a supported type and a size
    that is an [int] up to 5242880, a [float] not above 5242880 or a
    [bool]. *)
Theorem validate_event_accepts_iff (d : gmap string value) (st : state) :
  fst (validate_event (VDict d) st) = Ok true ↔ valid_share d.
Proof.
  split.
  - open_handler.
    repeat (case_match; cbn in *; simplify_eq); try discriminate; intros _.
    all: match goal with
         | H : negb (in_strs _ _) = false |- _ =>
             apply negb_false_iff, in_strs_inv in H as (mime & -> & Hin)
         end.
    all: match goal with
         | H : ne_str (default VNone _) _ = false |- _ =>
             apply default_subtype_is in H
         end.
    all: eexists _, _, _, _; repeat split; try eassumption; simpl; try exact I;
      try assumption.
    all: now apply Z.ltb_ge.
  - intros (d_event & d_file & mime & file_size
            & Hevent & Hsubtype & Hfile & Hmime & Hsupported & Hsize & Hfits).
    open_handler. use_lookups.
    rewrite (in_strs_supported mime Hsupported). cbn.
    destruct file_size as [|[]|n|f| | |]; simpl in Hfits; try contradiction; cbn;
      try reflexivity.
    + apply Z.ltb_ge in Hfits. now rewrite Hfits.
    + now rewrite Hfits.
Qed.

(** X3: neither validator makes an outbound call, on any event: the
    calls recorded after [verify_token] and after [validate_event] are
    the calls recorded before. *)
Theorem validation_makes_no_calls (event : value) (st : state) :
  calls (snd (verify_token VERIFICATION_TOKEN event st)) = calls st
  ∧ calls (snd (validate_event event st)) = calls st.
Proof.
  split; open_handler;
    repeat (case_match; cbn in *; simplify_eq); reflexivity.
Qed.

(** *** Events of an unexpected shape *)

(** X4: past the token and handshake gates, a share of a supported type
    whose [size] is neither a number ([int] or [float]) nor a [bool] (so
    a string, [None], a list or a dict) makes the handler raise
    [TypeError] at the size comparison, before any outbound call. *)
Theorem non_numeric_size_raises
    (d d_event d_file : gmap string value) (mime : string) (file_size : value) :
  d !! "token" = Some (VStr VERIFICATION_TOKEN) ->
  d !! "challenge" = None ->
  d !! "event" = Some (VDict d_event) ->
  d_event !! "subtype" = Some (VStr "file_share") ->
  d_event !! "file" = Some (VDict d_file) ->
  d_file !! "mimetype" = Some (VStr mime) ->
  In mime SUPPORTED_TYPES ->
  d_file !! "size" = Some file_size ->
  (∀ n, file_size ≠ VInt n) ->
  (∀ f, file_size ≠ VFloat f) ->
  (∀ b, file_size ≠ VBool b) ->
  returned (VDict d) = Raise TypeError ∧ trace (VDict d) = [].
Proof.
  intros Htok Hch Hevent Hsubtype Hfile Hmime Hsupported Hsize Hint Hfloat Hbool.
  open_handler. use_lookups. rewrite String.eqb_refl. use_lookups.
  rewrite (in_strs_supported mime Hsupported). cbn.
  destruct file_size as [|b|n|f| | |]; cbn; try (split; reflexivity).
  - now destruct (Hbool b).
  - now destruct (Hint n).
  - now destruct (Hfloat f).
Qed.

(** X5: past the token and handshake gates, a nested [event] that is
    not an object makes the handler raise [AttributeError] (at
    [event_details.get]), and a [file] of a [file_share] that is not an
    object makes it raise [TypeError] (at [file_details['mimetype']]);
    neither makes an outbound call. *)
Theorem non_object_fields_raise (d : gmap string value) (v : value) :
  d !! "token" = Some (VStr VERIFICATION_TOKEN) ->
  d !! "challenge" = None ->
  (∀ inner, v ≠ VDict inner) ->
  (d !! "event" = Some v ->
   returned (VDict d) = Raise AttributeError ∧ trace (VDict d) = [])
  ∧ (∀ d_event : gmap string value,
       d !! "event" = Some (VDict d_event) ->
       d_event !! "subtype" = Some (VStr "file_share") ->
       d_event !! "file" = Some v ->
       returned (VDict d) = Raise TypeError ∧ trace (VDict d) = []).
Proof.
  intros Htok Hch Hobj. split.
  - intros Hevent. open_handler. use_lookups. rewrite String.eqb_refl. use_lookups.
    destruct v as [| | | | | |inner]; cbn; try (split; reflexivity).
    now destruct (Hobj inner).
  - intros d_event Hevent Hsubtype Hfile.
    open_handler. use_lookups. rewrite String.eqb_refl. use_lookups.
    destruct v as [| | | | | |inner]; cbn; try (split; reflexivity).
    now destruct (Hobj inner).
Qed.

(** X6: an event that is not a dict (a list, a string, a number, [None])
    makes the handler raise [TypeError] at the token lookup, after its
    first progress line and before any outbound call. *)
Theorem non_dict_event_raises (event : value) :
  (∀ d, event ≠ VDict d) ->
  run event =
    (Raise TypeError, {| calls := []; stdout := ["Validating message..."] |}).
Proof.
  intros Hobj. destruct event as [| | | | | |d]; try reflexivity.
  now destruct (Hobj d).
Qed.

(** X7: a valid share that passed every gate but lacks [channel],
    [url_private] or [id] makes the handler raise [KeyError] for that
    key before the download: nothing is fetched. *)
Theorem missing_download_fields_raise
    (d d_event d_file : gmap string value) (mime : string) (file_size : value) :
  d !! "token" = Some (VStr VERIFICATION_TOKEN) ->
  d !! "challenge" = None ->
  d !! "event" = Some (VDict d_event) ->
  d_event !! "subtype" = Some (VStr "file_share") ->
  d_event !! "file" = Some (VDict d_file) ->
  d_file !! "mimetype" = Some (VStr mime) ->
  In mime SUPPORTED_TYPES ->
  d_file !! "size" = Some file_size ->
  size_accepted file_size ->
  d_event !! "channel" = None ∨ d_file !! "url_private" = None
    ∨ d_file !! "id" = None ->
  ∃ key,
    In key ["channel"; "url_private"; "id"]
    ∧ returned (VDict d) = Raise (KeyError key)
    ∧ trace (VDict d) = [].
Proof.
  intros Htok Hch Hevent Hsubtype Hfile Hmime Hsupported Hsize Hfits Hmissing.
  open_handler. use_lookups. rewrite String.eqb_refl. use_lookups.
  rewrite (in_strs_supported mime Hsupported). cbn.
  destruct file_size as [|[]|n|f| | |]; simpl in Hfits; try contradiction; cbn.
  3: apply Z.ltb_ge in Hfits; rewrite Hfits; cbn.
  4: rewrite Hfits; cbn.
  all: use_lookups.
  all: destruct (d_event !! "channel") as [channel|]; cbn;
    [|exists "channel"; simpl; tauto].
  all: destruct (d_file !! "url_private") as [url|]; cbn;
    [|exists "url_private"; simpl; tauto].
  all: destruct (d_file !! "id") as [file_id|]; cbn;
    [|exists "id"; simpl; tauto].
  all: destruct Hmissing as [?|[?|?]]; discriminate.
Qed.

(** *** What the handler reads *)

(** X8: a challenge that is [None] counts as no challenge: the run on
    the event is the run on the event with the key removed. *)
Theorem null_challenge_like_none (d : gmap string value) :
  d !! "challenge" = Some VNone ->
  run (VDict d) = run (VDict (delete "challenge" d)).
Proof.
  intros Hch. open_handler.
  rewrite lookup_delete_eq, !lookup_delete_ne by discriminate.
  rewrite Hch. reflexivity.
Qed.

(** X9: the handler reads three keys of the event, [token],
    [challenge] and [event]: two events that agree on them have the
    same run (same result, same calls, same lines printed). *)
Theorem only_three_keys_read (d d' : gmap string value) :
  d !! "token" = d' !! "token" ->
  d !! "challenge" = d' !! "challenge" ->
  d !! "event" = d' !! "event" ->
  run (VDict d) = run (VDict d').
Proof.
  intros Htok Hch Hevent. open_handler.
  rewrite Htok, Hch, Hevent. reflexivity.
Qed.

(** *** Order and content of the calls *)

Lemma download_not_post (endpoint : string) (url : value) out :
  is_post_to endpoint (Urlopen (download_request ACCESS_TOKEN url) out) = false.
Proof. destruct url; reflexivity. Qed.

(** Splits a membership in an explicit trace into its cases. *)
Ltac in_cases :=
  repeat match goal with
         | H : _ ∨ _ |- _ => destruct H as [H|H]
         | H : False |- _ => destruct H
         | H : Urlopen _ _ = DetectModerationLabels _ _ _ |- _ => discriminate H
         | H : DetectModerationLabels _ _ _ = Urlopen _ _ |- _ => discriminate H
         | H : Urlopen _ (inl _) = Urlopen _ (inr _) |- _ => discriminate H
         | H : Urlopen _ (inr _) = Urlopen _ (inl _) |- _ => discriminate H
         | H : DetectModerationLabels _ _ (inl _)
               = DetectModerationLabels _ _ (inr _) |- _ => discriminate H
         | H : DetectModerationLabels _ _ (inr _)
               = DetectModerationLabels _ _ (inl _) |- _ => discriminate H
         end.

(** X10: when the download fails, its error leaves the handler and the
    download is the only call of the run: no moderation call, no
    deletion, no post. *)
Theorem download_failure_propagates (event url : value) (e : lib_error) :
  In (Urlopen (download_request ACCESS_TOKEN url) (inr e)) (trace event) ->
  returned event = Raise (LibError e)
  ∧ trace event = [Urlopen (download_request ACCESS_TOKEN url) (inr e)]
  ∧ event_url_private event = Some url.
Proof.
  intros Hin. by_shape event; in_cases.
  - injection Hin as -> ->. repeat split. assumption.
  - discriminate Hin.
  - discriminate Hin.
Qed.

(** X11: a deletion is only ever requested for a flagged image: every
    POST to [files.delete] in a run carries the event's file id and
    comes after a moderation call that returned at least one label. *)
Theorem deletion_only_when_flagged (event : value) (call : io_event) :
  In call (trace event) ->
  is_post_to FILES_DELETE_URL call = true ->
  ∃ file_id out image resp,
    call = Urlopen (delete_request ACCESS_TOKEN file_id) out
    ∧ event_file_id event = Some file_id
    ∧ In (DetectModerationLabels image MIN_CONFIDENCE (inl resp)) (trace event)
    ∧ ModerationLabels resp ≠ [].
Proof.
  intros Hin Hdel.
  by_shape event; in_cases; subst call;
    try (rewrite download_not_post in Hdel);
    try discriminate Hdel.
  - eexists _, _, _, _. repeat split; eauto.
  - eexists _, _, _, _. repeat split; eauto.
Qed.

(** X12: the channel is only notified after a deletion that returned:
    a run with a POST to [chat.postMessage] is exactly download,
    moderation, answered deletion, post, the post carries the event's
    channel, and the handler returns [None] when the post is answered
    and raises its error when it fails (the file is deleted by then). *)
Theorem post_only_after_deletion (event : value) (call : io_event) :
  In call (trace event) ->
  is_post_to POST_MESSAGE_URL call = true ->
  ∃ url image resp file_id channel body out,
    call = Urlopen (post_request ACCESS_TOKEN channel) out
    ∧ event_channel event = Some channel
    ∧ ModerationLabels resp ≠ []
    ∧ trace event =
        [Urlopen (download_request ACCESS_TOKEN url) (inl image);
         DetectModerationLabels image MIN_CONFIDENCE (inl resp);
         Urlopen (delete_request ACCESS_TOKEN file_id) (inl body);
         call]
    ∧ returned event =
        match out with inl _ => Ok VNone | inr e => Raise (LibError e) end.
Proof.
  intros Hin Hpost.
  by_shape event; in_cases; subst call;
    try (rewrite download_not_post in Hpost);
    try discriminate Hpost.
  eexists _, _, _, _, _, _, _. repeat split; eauto.
Qed.

(** X13: the bytes submitted for moderation are the bytes the download
    of the event's [url_private] returned, and they are submitted with
    the configured minimum confidence. *)
Theorem moderated_bytes_are_downloaded
    (event : value) (image : bytes) (conf : float) (out : response + lib_error) :
  In (DetectModerationLabels image conf out) (trace event) ->
  conf = MIN_CONFIDENCE
  ∧ ∃ url,
      event_url_private event = Some url
      ∧ In (Urlopen (download_request ACCESS_TOKEN url) (inl image)) (trace event).
Proof.
  intros Hin.
  by_shape event; in_cases;
    injection Hin as <- <- <-; (split; [reflexivity|]);
    eexists; (split; [eassumption|]); left; reflexivity.
Qed.

(** X14: the handler sends three kinds of request and no other: a GET
    of the event's [url_private] with the bearer header, a form POST
    to [files.delete] with the event's file id, and a form POST to
    [chat.postMessage] with the event's channel and the removal text. *)
Theorem requests_built_from_event
    (event : value) (r : request) (out : bytes + lib_error) :
  In (Urlopen r out) (trace event) ->
  (∃ url,
      event_url_private event = Some url
      ∧ r = {| full_url := url; data := None;
               headers := [("Authorization", "Bearer " +:+ ACCESS_TOKEN)] |})
  ∨ (∃ file_id,
        event_file_id event = Some file_id
        ∧ r = {| full_url := VStr "https://slack.com/api/files.delete";
                 data := Some [("token", VStr ACCESS_TOKEN); ("file", file_id)];
                 headers := [("Content-Type", "application/x-www-form-urlencoded")] |})
  ∨ (∃ channel,
        event_channel event = Some channel
        ∧ r = {| full_url := VStr "https://slack.com/api/chat.postMessage";
                 data := Some [("token", VStr ACCESS_TOKEN);
                               ("channel", channel);
                               ("text", VStr "File removed due to displaying explicit or suggestive adult content.")];
                 headers := [("Content-Type", "application/x-www-form-urlencoded")] |}).
Proof.
  intros Hin.
  by_shape event; in_cases; injection Hin as <- <-; eauto.
Qed.

(** *** Results and calls *)

(** X15: no outbound call is made for an event that did not pass every
    gate: a run with a call is the run of a dict event that presents the
    configured token, has no challenge (or a [None] one) and is a valid
    share. *)
Theorem calls_only_past_gates (event : value) :
  trace event ≠ [] ->
  ∃ d : gmap string value,
    event = VDict d
    ∧ d !! "token" = Some (VStr VERIFICATION_TOKEN)
    ∧ (d !! "challenge" = None ∨ d !! "challenge" = Some VNone)
    ∧ valid_share d.
Proof.
  destruct event as [| | | | | |d]; try (intros H; now destruct H).
  intros Hcalls. exists d. split; [reflexivity|]. revert Hcalls.
  open_handler.
  repeat (case_match; cbn in *; simplify_eq);
    intros Hcalls; try (now destruct Hcalls); clear Hcalls.
  all: repeat match goal with
         | H : negb (in_strs _ _) = false |- _ =>
             apply negb_false_iff, in_strs_inv in H as (mime & -> & Hin)
         | H : ne_str (default VNone _) _ = false |- _ =>
             apply default_subtype_is in H
         | H : ne_str _ VERIFICATION_TOKEN = false |- _ =>
             apply ne_str_false in H; subst
         | H : (MAX_SIZE <? _)%Z = false |- _ => apply Z.ltb_ge in H
         end.
  all: split; [reflexivity|]; split;
    [destruct (d !! "challenge") as [[]|]; simpl in *; solve [auto | discriminate]|].
  all: eexists _, _, _, _; repeat split; try eassumption; simpl; auto.
Qed.

(** X16: the handler's own exceptions ([KeyError], [TypeError],
    [AttributeError]) only leave it before the first outbound call; a
    library error that leaves it is the failure of the last call of the
    run. *)
Theorem errors_and_calls (event : value) (e : exn) :
  returned event = Raise e ->
  match e with
  | LibError le =>
      ∃ before call,
        trace event = before ++ [call]
        ∧ ((∃ r, call = Urlopen r (inr le))
           ∨ ∃ image, call = DetectModerationLabels image MIN_CONFIDENCE (inr le))
  | _ => trace event = []
  end.
Proof.
  destruct event as [| | | | | |d];
    try (intros H; injection H as <-; reflexivity).
  open_handler.
  repeat (case_match; cbn in *; simplify_eq);
    intros Hret; simplify_eq; try reflexivity.
  all: match goal with
       | |- ∃ before call, [?a] = _ ∧ _ => exists [], a
       | |- ∃ before call, [?a; ?b] = _ ∧ _ => exists [a], b
       | |- ∃ before call, [?a; ?b; ?c] = _ ∧ _ => exists [a; b], c
       | |- ∃ before call, [?a; ?b; ?c; ?d] = _ ∧ _ => exists [a; b; c], d
       end.
  all: split; [reflexivity|eauto].
Qed.

(** X17: when the handler returns, it returns [None] or, for an event
    that presents the configured token and a challenge that is not
    [None], the dict echoing the challenge; the echo comes with no
    outbound call. *)
Theorem returns_none_or_echo (event v : value) :
  returned event = Ok v ->
  v = VNone
  ∨ ∃ (d : gmap string value) (challenge : value),
      event = VDict d
      ∧ d !! "token" = Some (VStr VERIFICATION_TOKEN)
      ∧ d !! "challenge" = Some challenge
      ∧ challenge ≠ VNone
      ∧ v = VDict {[ "challenge" := challenge ]}
      ∧ trace event = [].
Proof.
  destruct event as [| | | | | |d]; try discriminate.
  open_handler.
  repeat (case_match; cbn in *; simplify_eq);
    intros Hret; simpl in Hret; simplify_eq; try (left; reflexivity).
  right.
  repeat match goal with
         | H : ne_str _ VERIFICATION_TOKEN = false |- _ =>
             apply ne_str_false in H; subst
         end.
  eexists _, _. repeat split; try eassumption; try reflexivity.
  intros ->. discriminate.
Qed.

End Properties.

(** ** The properties on the sample events *)

Module Witness.

Import Sample.

Local Ltac sample :=
  unfold Sample.run, Sample.returned, Sample.trace, Sample.printed.

(** A share presenting a forged token is dropped without a call. *)
Lemma forged_share_dropped :
  forged_share !! "token" = Some (VStr "forged")
  ∧ VStr "forged" ≠ VStr VERIFICATION_TOKEN
  ∧ returned flagging (VDict forged_share) = Ok VNone
  ∧ trace flagging (VDict forged_share) = [].
Proof.
  split; [reflexivity|]. split; [discriminate|]. sample.
  apply (bad_token_ignored _ _ _ _ forged_share (VStr "forged"));
    [reflexivity|discriminate].
Defined.

(** A callback without [token] raises [KeyError] at the token check. *)
Lemma tokenless_event_raises :
  tokenless !! "token" = None
  ∧ returned flagging (VDict tokenless) = Raise (KeyError "token")
  ∧ trace flagging (VDict tokenless) = [].
Proof.
  split; [reflexivity|]. sample.
  apply (missing_token_raises _ _ _ _ tokenless). reflexivity.
Defined.

(** A handshake presenting a forged token gets no echo. *)
Lemma forged_handshake_dropped :
  handshake "forged" !! "challenge" = Some (VStr "abc123")
  ∧ returned clean (VDict (handshake "forged")) = Ok VNone
  ∧ returned clean (VDict (handshake "forged"))
    ≠ Ok (VDict {[ "challenge" := VStr "abc123" ]})
  ∧ trace clean (VDict (handshake "forged")) = [].
Proof.
  split; [reflexivity|]. sample.
  apply (challenge_needs_token _ _ _ _
           (handshake "forged") (VStr "forged") (VStr "abc123"));
    [reflexivity|discriminate|reflexivity].
Defined.

(** The handshake with the configured token is answered with its echo. *)
Lemma handshake_answered :
  run clean (VDict (handshake VERIFICATION_TOKEN)) =
    (Ok (VDict {[ "challenge" := VStr "abc123" ]}),
     {| calls := [];
        stdout := ["Validating message...";
                   "Presented with URL verification challenge- responding accordingly..."] |}).
Proof.
  sample.
  apply (challenge_echoed _ _ _ _ (handshake VERIFICATION_TOKEN) (VStr "abc123"));
    [reflexivity|reflexivity|discriminate].
Defined.

(** C4 as stated fails: the handshake event below contains the
    challenge [abc123], and the handler does not return its echo,
    because the token it presents is not the configured one. *)
Lemma challenge_not_always_echoed :
  handshake "forged" !! "challenge" = Some (VStr "abc123")
  ∧ returned clean (VDict (handshake "forged")) = Ok VNone
  ∧ returned clean (VDict (handshake "forged"))
    ≠ Ok (VDict {[ "challenge" := VStr "abc123" ]}).
Proof.
  split; [reflexivity|]. split; [reflexivity|].
  vm_compute. discriminate.
Qed.


(** A throttled moderation call: logged, re-raised, nothing deleted or posted. *)
Lemma throttled_detect_propagates :
  In (DetectModerationLabels image MIN_CONFIDENCE (inr throttled))
     (trace rekognition_down (VDict shared_png))
  ∧ returned rekognition_down (VDict shared_png) = Raise (LibError throttled)
  ∧ (∀ st, fst (detect_explicit_content MIN_CONFIDENCE rekognition_down image st)
           = Raise (LibError throttled))
  ∧ (∃ before, printed rekognition_down (VDict shared_png) =
               before ++ [exc_str throttled; "Unable to detect labels for image."])
  ∧ mutations (trace rekognition_down (VDict shared_png)) = [].
Proof.
  assert (Hin : In (DetectModerationLabels image MIN_CONFIDENCE (inr throttled))
                   (trace rekognition_down (VDict shared_png)))
    by (right; left; reflexivity).
  split; [exact Hin|].
  exact (detect_failure_propagates _ _ _ _ _ _ _ Hin).
Defined.

(** A flagged image: one deletion, then one post, when every call is answered. *)
Lemma flagged_png_removed :
  ∃ file_id channel body out,
    event_file_id (VDict shared_png) = Some file_id
    ∧ event_channel (VDict shared_png) = Some channel
    ∧ mutations (trace flagging (VDict shared_png)) =
        [Urlopen (delete_request ACCESS_TOKEN file_id) (inl body);
         Urlopen (post_request ACCESS_TOKEN channel) out]
    ∧ data (delete_request ACCESS_TOKEN file_id) =
        Some [("token", VStr ACCESS_TOKEN); ("file", file_id)]
    ∧ data (post_request ACCESS_TOKEN channel) =
        Some [("token", VStr ACCESS_TOKEN); ("channel", channel);
              ("text", VStr "File removed due to displaying explicit or suggestive adult content.")].
Proof.
  sample.
  apply (flagged_file_removed _ _ _ _ (VDict shared_png) url_private image
           {| ModerationLabels := [nudity] |}).
  - left. reflexivity.
  - right. left. reflexivity.
  - discriminate.
  - intros file_id e Hin. vm_compute in Hin.
    destruct Hin as [Hin|[Hin|[Hin|[Hin|[]]]]]; discriminate Hin.
Defined.

(** C1 as stated fails: against a world where the form POSTs fail,
    the download returns bytes and the image is flagged, the deletion
    call is made and raises, and no message-post call is made. *)
Lemma post_skipped_when_delete_fails :
  In (Urlopen (download_request ACCESS_TOKEN url_private) (inl image))
     (trace posts_fail (VDict shared_png))
  ∧ In (DetectModerationLabels image MIN_CONFIDENCE
          (inl {| ModerationLabels := [nudity] |}))
       (trace posts_fail (VDict shared_png))
  ∧ mutations (trace posts_fail (VDict shared_png)) =
      [Urlopen (delete_request ACCESS_TOKEN file_id) (inr unreachable)]
  ∧ List.filter (is_post_to POST_MESSAGE_URL) (trace posts_fail (VDict shared_png)) = []
  ∧ returned posts_fail (VDict shared_png) = Raise (LibError unreachable).
Proof.
  split; [left; reflexivity|]. split; [right; left; reflexivity|].
  repeat split; reflexivity.
Qed.

(** One byte over the limit stops the run; the limit itself goes on to the download. *)
Lemma size_limit_on_png :
  trace flagging (VDict oversized_png) = []
  ∧ (∀ st, validate_event (VDict largest_png) st = (Ok true, st))
  ∧ ∃ rest,
      trace flagging (VDict largest_png) =
        Urlopen (download_request ACCESS_TOKEN url_private) (inl image) :: rest.
Proof.
  sample.
  assert (Hpng : In "image/png" SUPPORTED_TYPES)
    by (right; right; left; reflexivity).
  destruct (size_limit_is_inclusive VERIFICATION_TOKEN ACCESS_TOKEN MIN_CONFIDENCE
              flagging oversized_png
              (share "image/png" 5242881) (file "image/png" 5242881)
              "image/png" 5242881
              eq_refl eq_refl eq_refl eq_refl Hpng eq_refl) as [Hover _].
  destruct (size_limit_is_inclusive VERIFICATION_TOKEN ACCESS_TOKEN MIN_CONFIDENCE
              flagging largest_png
              (share "image/png" 5242880) (file "image/png" 5242880)
              "image/png" 5242880
              eq_refl eq_refl eq_refl eq_refl Hpng eq_refl) as [_ Hmax].
  destruct (Hmax eq_refl) as [Hvalid Hdownload].
  split; [exact (Hover eq_refl)|]. split; [exact Hvalid|].
  exact (Hdownload channel url_private file_id
           eq_refl eq_refl eq_refl eq_refl eq_refl).
Defined.

(** An ordinary message and a shared GIF are both ignored. *)
Lemma message_and_gif_ignored :
  (returned flagging (VDict plain_message) = Ok VNone
   ∧ trace flagging (VDict plain_message) = [])
  ∧ (returned flagging (VDict shared_gif) = Ok VNone
     ∧ trace flagging (VDict shared_gif) = []).
Proof.
  sample. split.
  - apply (unsupported_event_ignored _ _ _ _ plain_message message);
      try reflexivity.
    left. discriminate.
  - apply (unsupported_event_ignored _ _ _ _ shared_gif (share "image/gif" 204800));
      try reflexivity.
    right. exists (file "image/gif" 204800), (VStr "image/gif"), (VInt 204800).
    repeat split; try reflexivity.
    intros s [<-|[<-|[<-|[]]]]; discriminate.
Defined.

(** A share whose file object lacks [mimetype] and [size] raises [KeyError]. *)
Lemma truncated_share_raises :
  ∃ key,
    In key ["event"; "file"; "mimetype"; "size"]
    ∧ returned flagging (VDict truncated_share) = Raise (KeyError key)
    ∧ trace flagging (VDict truncated_share) = [].
Proof.
  sample.
  apply (missing_fields_raise _ _ _ _ truncated_share); try reflexivity.
  right. exists (<["subtype" := VStr "file_share"]>
                   {[ "file" := VDict {[ "id" := file_id ]} ]}).
  repeat split; try reflexivity.
  right. exists {[ "id" := file_id ]}. split; [reflexivity|].
  left. reflexivity.
Defined.

(** C6 as stated fails: the share below is a [file_share] of a PNG of
    exactly 5242880 bytes, and the handler does not go on to the
    download, because the token it presents is not the configured one. *)
Lemma forged_share_at_limit_not_downloaded :
  forged_largest_png !! "event" = Some (VDict (share "image/png" 5242880))
  ∧ share "image/png" 5242880 !! "subtype" = Some (VStr "file_share")
  ∧ share "image/png" 5242880 !! "file" = Some (VDict (file "image/png" 5242880))
  ∧ file "image/png" 5242880 !! "mimetype" = Some (VStr "image/png")
  ∧ In "image/png" SUPPORTED_TYPES
  ∧ file "image/png" 5242880 !! "size" = Some (VInt 5242880)
  ∧ trace flagging (VDict forged_largest_png) = []
  ∧ returned flagging (VDict forged_largest_png) = Ok VNone.
Proof.
  repeat split; try reflexivity.
  right; right; left; reflexivity.
Qed.

(** C7 as stated fails: the event below presents the configured token,
    has no challenge and shares a file of type [image/gif], outside the
    supported set; its file object has no [size], and the handler
    raises [KeyError] instead of returning [None]. *)
Lemma sizeless_gif_raises :
  callback (VDict sizeless_gif_event) !! "token" = Some (VStr VERIFICATION_TOKEN)
  ∧ callback (VDict sizeless_gif_event) !! "challenge" = None
  ∧ path ["event"; "file"; "mimetype"] (VDict (callback (VDict sizeless_gif_event)))
    = Some (VStr "image/gif")
  ∧ ¬ In "image/gif" SUPPORTED_TYPES
  ∧ returned flagging (VDict (callback (VDict sizeless_gif_event)))
    = Raise (KeyError "size")
  ∧ returned flagging (VDict (callback (VDict sizeless_gif_event))) ≠ Ok VNone.
Proof.
  repeat split; try reflexivity.
  - intros [H|[H|[H|[]]]]; discriminate H.
  - vm_compute. discriminate.
Qed.

End Witness.

(** ** Further properties on the sample events *)

Module Examples.

Import Sample.

Local Ltac sample :=
  unfold Sample.run, Sample.returned, Sample.trace, Sample.printed.

(** The configured token is accepted silently. *)
Lemma configured_token_accepted :
  shared_png !! "token" = Some (VStr VERIFICATION_TOKEN)
  ∧ verify_token VERIFICATION_TOKEN (VDict shared_png) init = (Ok true, init).
Proof.
  split; [reflexivity|].
  apply (verify_token_exact VERIFICATION_TOKEN shared_png init). reflexivity.
Defined.

(** The shared PNG is a valid share, and so is a PNG whose size is the
    float 204800.5; [validate_event] says so. *)
Lemma shared_png_validated :
  (valid_share shared_png
   ∧ fst (validate_event (VDict shared_png) init) = Ok true)
  ∧ (valid_share (callback (VDict float_size_event))
     ∧ fst (validate_event (VDict (callback (VDict float_size_event))) init) = Ok true).
Proof.
  assert (Hvalid : valid_share shared_png).
  { exists (share "image/png" 204800), (file "image/png" 204800),
      "image/png", (VInt 204800).
    repeat split; try reflexivity.
    - right; right; left; reflexivity.
    - discriminate. }
  assert (Hfloat : valid_share (callback (VDict float_size_event))).
  { exists float_size_event, float_size_file, "image/png", (VFloat 204800.5%float).
    repeat split; try reflexivity.
    right; right; left; reflexivity. }
  split; (split; [assumption|]).
  - exact (proj2 (validate_event_accepts_iff shared_png init) Hvalid).
  - exact (proj2 (validate_event_accepts_iff (callback (VDict float_size_event)) init)
             Hfloat).
Defined.

(** A size given as a string raises [TypeError]. *)
Lemma string_size_raises :
  returned flagging (VDict (callback (VDict string_size_event))) = Raise TypeError
  ∧ trace flagging (VDict (callback (VDict string_size_event))) = [].
Proof.
  sample.
  apply (non_numeric_size_raises _ _ _ _
           (callback (VDict string_size_event)) string_size_event
           string_size_file "image/png" (VStr "204800"));
    try reflexivity; try discriminate.
  right; right; left; reflexivity.
Defined.

(** A [None] event raises [AttributeError]; a [None] file raises
    [TypeError]. *)
Lemma null_fields_raise :
  (returned flagging (VDict (callback VNone)) = Raise AttributeError
   ∧ trace flagging (VDict (callback VNone)) = [])
  ∧ (returned flagging (VDict (callback (VDict null_file_event))) = Raise TypeError
     ∧ trace flagging (VDict (callback (VDict null_file_event))) = []).
Proof.
  sample. split.
  - apply (non_object_fields_raise VERIFICATION_TOKEN ACCESS_TOKEN MIN_CONFIDENCE
             flagging (callback VNone) VNone);
      try reflexivity; discriminate.
  - apply (non_object_fields_raise VERIFICATION_TOKEN ACCESS_TOKEN MIN_CONFIDENCE
             flagging (callback (VDict null_file_event)) VNone)
      with (d_event := null_file_event);
      try reflexivity; discriminate.
Defined.

(** A JSON [null] delivered as the event raises [TypeError]. *)
Lemma null_event_raises :
  run flagging VNone =
    (Raise TypeError, {| calls := []; stdout := ["Validating message..."] |}).
Proof.
  sample. apply non_dict_event_raises. discriminate.
Defined.

(** A valid share without [channel] raises before the download. *)
Lemma channelless_share_raises :
  ∃ key,
    In key ["channel"; "url_private"; "id"]
    ∧ returned flagging (VDict (callback (VDict no_channel_event)))
      = Raise (KeyError key)
    ∧ trace flagging (VDict (callback (VDict no_channel_event))) = [].
Proof.
  sample.
  apply (missing_download_fields_raise _ _ _ _
           (callback (VDict no_channel_event)) no_channel_event
           (file "image/png" 204800) "image/png" (VInt 204800));
    try reflexivity.
  - right; right; left; reflexivity.
  - discriminate.
  - left. reflexivity.
Defined.

(** The shared PNG with a [None] challenge runs as without it. *)
Lemma null_challenge_ignored :
  run flagging (VDict null_challenge_png)
  = run flagging (VDict (delete "challenge" null_challenge_png)).
Proof.
  sample. apply null_challenge_like_none. reflexivity.
Defined.

(** A key the handler does not read changes nothing. *)
Lemma team_id_not_read :
  run flagging (VDict shared_png) = run flagging (VDict shared_png_of_team).
Proof.
  sample. apply only_three_keys_read; reflexivity.
Defined.

(** A failed download is the only call of its run. *)
Lemma failed_download_ends_run :
  returned download_down (VDict shared_png) = Raise (LibError unreachable)
  ∧ trace download_down (VDict shared_png) =
      [Urlopen (download_request ACCESS_TOKEN url_private) (inr unreachable)]
  ∧ event_url_private (VDict shared_png) = Some url_private.
Proof.
  sample.
  apply download_failure_propagates. left. reflexivity.
Defined.

(** The deletion of the flagged PNG follows a flagging answer. *)
Lemma png_deleted_after_flag :
  ∃ file_id out image resp,
    Urlopen (delete_request ACCESS_TOKEN Sample.file_id) (inl Sample.image)
    = Urlopen (delete_request ACCESS_TOKEN file_id) out
    ∧ event_file_id (VDict shared_png) = Some file_id
    ∧ In (DetectModerationLabels image MIN_CONFIDENCE (inl resp))
         (trace flagging (VDict shared_png))
    ∧ ModerationLabels resp ≠ [].
Proof.
  sample.
  apply (deletion_only_when_flagged VERIFICATION_TOKEN ACCESS_TOKEN MIN_CONFIDENCE
           flagging (VDict shared_png)).
  - right; right; left. reflexivity.
  - reflexivity.
Defined.

(** The post about the flagged PNG closes a run of four calls. *)
Lemma png_post_closes_run :
  ∃ url image resp file_id channel body out,
    Urlopen (post_request ACCESS_TOKEN Sample.channel) (inl Sample.image)
    = Urlopen (post_request ACCESS_TOKEN channel) out
    ∧ event_channel (VDict shared_png) = Some channel
    ∧ ModerationLabels resp ≠ []
    ∧ trace flagging (VDict shared_png) =
        [Urlopen (download_request ACCESS_TOKEN url) (inl image);
         DetectModerationLabels image MIN_CONFIDENCE (inl resp);
         Urlopen (delete_request ACCESS_TOKEN file_id) (inl body);
         Urlopen (post_request ACCESS_TOKEN Sample.channel) (inl Sample.image)]
    ∧ returned flagging (VDict shared_png) =
        match out with inl _ => Ok VNone | inr e => Raise (LibError e) end.
Proof.
  sample.
  apply (post_only_after_deletion VERIFICATION_TOKEN ACCESS_TOKEN MIN_CONFIDENCE
           flagging (VDict shared_png)).
  - right; right; right; left. reflexivity.
  - reflexivity.
Defined.

(** The bytes moderated are the bytes downloaded. *)
Lemma png_bytes_moderated :
  MIN_CONFIDENCE = MIN_CONFIDENCE
  ∧ ∃ url,
      event_url_private (VDict shared_png) = Some url
      ∧ In (Urlopen (download_request ACCESS_TOKEN url) (inl image))
           (trace clean (VDict shared_png)).
Proof.
  sample.
  apply (moderated_bytes_are_downloaded VERIFICATION_TOKEN ACCESS_TOKEN
           MIN_CONFIDENCE clean (VDict shared_png) image MIN_CONFIDENCE
           (inl {| ModerationLabels := [] |})).
  right; left. reflexivity.
Defined.

(** The run on the shared PNG has a call, so the PNG passed the gates. *)
Lemma png_passed_gates :
  trace flagging (VDict shared_png) ≠ []
  ∧ ∃ d : gmap string value,
      VDict shared_png = VDict d
      ∧ d !! "token" = Some (VStr VERIFICATION_TOKEN)
      ∧ (d !! "challenge" = None ∨ d !! "challenge" = Some VNone)
      ∧ valid_share d.
Proof.
  assert (Hcalls : trace flagging (VDict shared_png) ≠ []) by discriminate.
  split; [exact Hcalls|].
  exact (calls_only_past_gates _ _ _ _ _ Hcalls).
Defined.

(** The [KeyError] of a callback without token comes with no call. *)
Lemma tokenless_error_precedes_calls :
  returned flagging (VDict tokenless) = Raise (KeyError "token")
  ∧ trace flagging (VDict tokenless) = [].
Proof.
  split; [reflexivity|].
  exact (errors_and_calls VERIFICATION_TOKEN ACCESS_TOKEN MIN_CONFIDENCE flagging
           (VDict tokenless) (KeyError "token") eq_refl).
Defined.

(** What the handler returned to the handshake is its echo. *)
Lemma handshake_return_is_echo :
  VDict {[ "challenge" := VStr "abc123" ]} = VNone
  ∨ ∃ (d : gmap string value) (challenge : value),
      VDict (handshake VERIFICATION_TOKEN) = VDict d
      ∧ d !! "token" = Some (VStr VERIFICATION_TOKEN)
      ∧ d !! "challenge" = Some challenge
      ∧ challenge ≠ VNone
      ∧ VDict {[ "challenge" := VStr "abc123" ]} = VDict {[ "challenge" := challenge ]}
      ∧ trace clean (VDict (handshake VERIFICATION_TOKEN)) = [].
Proof.
  sample.
  apply (returns_none_or_echo VERIFICATION_TOKEN ACCESS_TOKEN MIN_CONFIDENCE clean
           (VDict (handshake VERIFICATION_TOKEN))).
  reflexivity.
Defined.

(** The deletion request of the flagged PNG is built from its file id. *)
Lemma png_delete_request_from_event :
  (∃ url,
      event_url_private (VDict shared_png) = Some url
      ∧ delete_request ACCESS_TOKEN file_id =
          {| full_url := url; data := None;
             headers := [("Authorization", "Bearer " +:+ ACCESS_TOKEN)] |})
  ∨ (∃ file_id,
        event_file_id (VDict shared_png) = Some file_id
        ∧ delete_request ACCESS_TOKEN Sample.file_id =
            {| full_url := VStr "https://slack.com/api/files.delete";
               data := Some [("token", VStr ACCESS_TOKEN); ("file", file_id)];
               headers := [("Content-Type", "application/x-www-form-urlencoded")] |})
  ∨ (∃ channel,
        event_channel (VDict shared_png) = Some channel
        ∧ delete_request ACCESS_TOKEN file_id =
            {| full_url := VStr "https://slack.com/api/chat.postMessage";
               data := Some [("token", VStr ACCESS_TOKEN);
                             ("channel", channel);
                             ("text", VStr "File removed due to displaying explicit or suggestive adult content.")];
               headers := [("Content-Type", "application/x-www-form-urlencoded")] |}).
Proof.
  apply (requests_built_from_event VERIFICATION_TOKEN ACCESS_TOKEN MIN_CONFIDENCE
           flagging (VDict shared_png) (delete_request ACCESS_TOKEN file_id)
           (inl image)).
  right; right; left. reflexivity.
Defined.

End Examples.
